(** * The soxr recipe (recipes/soxr/all/conanfile.py)

    A shallow embedding of the methods of [SoxrConan] that decide how the
    package is configured and described: [config_options], [configure],
    [generate], [package_info] and [_extract_pffft_license].

    The recipe object is mutable Python state.  Each method is embedded as a
    function from the recipe object before the call to the recipe object
    after it, inside an error monad: reading or deleting an option that is
    not defined raises, as Conan's [Options] object does. *)

From Stdlib Require Import ZArith String Ascii List Bool Lia.
From Stdlib Require Import DecimalString.
From stdpp Require Import base option gmap strings list fin_maps.

Open Scope string_scope.

(** ** Exceptions and the error monad *)

Inductive Exception : Type :=
  | ConanException (msg : string)
  | FileNotFoundError (path : string).

Inductive Result (A : Type) : Type :=
  | Ok (a : A)
  | Raise (e : Exception).

Arguments Ok {A} a.
Arguments Raise {A} e.

#[global] Instance Result_ret : MRet Result := fun A a => Ok a.
#[global] Instance Result_bind : MBind Result := fun A B k r =>
  match r with
  | Ok a => k a
  | Raise e => Raise e
  end.

Definition raises {A} (r : Result A) : bool :=
  match r with
  | Ok _ => false
  | Raise _ => true
  end.

(** ** The recipe object *)

(** One entry of [cpp_info.components]. *)
Record Component : Type := mkComponent {
  properties : gmap string string;
  libs : list string;
  system_libs : list string;
  defines : list string;
  exelinkflags : list string;
  sharedlinkflags : list string;
  requires : list string
}.

(** The component that [cpp_info.components[name]] creates on first use. *)
Definition new_component : Component :=
  mkComponent ∅ [] [] [] [] [] [].

(** The values a user gives to the four options declared by the recipe. *)
Record OptionValues : Type := mkOptionValues {
  opt_shared : bool;
  opt_fPIC : bool;
  opt_with_openmp : bool;
  opt_with_lsr_bindings : bool
}.

(** [default_options] of the recipe. *)
Definition default_options : OptionValues :=
  mkOptionValues false true false true.

(** The recipe object: [self.version], [self.settings], [self.options],
    the two folders the packaging step uses and [self.cpp_info.components].
    Settings are keyed by their dotted name ("os", "compiler",
    "compiler.runtime", ...); an undefined setting is an absent key. *)
Record ConanFile : Type := mkConanFile {
  version : string;
  settings : gmap string string;
  options : gmap string bool;
  source_folder : string;
  package_folder : string;
  cpp_info : gmap string Component
}.

Definition with_options (o : gmap string bool) (self : ConanFile) : ConanFile :=
  mkConanFile (version self) (settings self) o
              (source_folder self) (package_folder self) (cpp_info self).

Definition with_settings (s : gmap string string) (self : ConanFile) : ConanFile :=
  mkConanFile (version self) s (options self)
              (source_folder self) (package_folder self) (cpp_info self).

Definition with_cpp_info (c : gmap string Component) (self : ConanFile) : ConanFile :=
  mkConanFile (version self) (settings self) (options self)
              (source_folder self) (package_folder self) c.

(** The option object Conan builds from the recipe's [options] declaration
    and the user's values, before any method of the recipe runs. *)
Definition declared_options (v : OptionValues) : gmap string bool :=
  <["shared" := opt_shared v]>
  (<["fPIC" := opt_fPIC v]>
  (<["with_openmp" := opt_with_openmp v]>
  (<["with_lsr_bindings" := opt_with_lsr_bindings v]> ∅))).

Definition new_conanfile (ver : string) (s : gmap string string)
    (v : OptionValues) (src pkg : string) : ConanFile :=
  mkConanFile ver s (declared_options v) src pkg ∅.

(** *** Options: [self.options.name], [del self.options.name], [rm_safe] *)

Definition get_option (name : string) (self : ConanFile) : Result bool :=
  match options self !! name with
  | Some b => Ok b
  | None => Raise (ConanException ("option '" ++ name ++ "' doesn't exist"))
  end.

Definition del_option (name : string) (self : ConanFile) : Result ConanFile :=
  match options self !! name with
  | Some _ => Ok (with_options (delete name (options self)) self)
  | None => Raise (ConanException ("option '" ++ name ++ "' doesn't exist"))
  end.

Definition options_rm_safe (name : string) (self : ConanFile) : ConanFile :=
  with_options (delete name (options self)) self.

(** *** Settings: [self.settings.name == value], [name in (...)], [rm_safe] *)

Definition setting_is (name value : string) (self : ConanFile) : bool :=
  bool_decide (settings self !! name = Some value).

Definition setting_in (name : string) (values : list string) (self : ConanFile) : bool :=
  existsb (fun v => setting_is name v self) values.

Definition settings_rm_safe (name : string) (self : ConanFile) : ConanFile :=
  with_settings (delete name (settings self)) self.

(** ** [config_options] and [configure] *)

Definition config_options (self : ConanFile) : Result ConanFile :=
  if setting_is "os" "Windows" self
  then del_option "fPIC" self
  else Ok self.

Definition configure (self : ConanFile) : Result ConanFile :=
  shared ← get_option "shared" self;
  let self := if shared : bool then options_rm_safe "fPIC" self else self in
  let self := settings_rm_safe "compiler.libcxx" self in
  let self := settings_rm_safe "compiler.cppstd" self in
  Ok self.

(** ** Helpers the recipe imports from Conan

    [is_msvc] and [msvc_runtime_flag] (conan.tools.microsoft) and the
    ordering of [Version] against a string (conan.tools.scm) belong to the
    package manager, not to the recipe.  The recipe is embedded over any
    implementation of them; Conan validates the settings before a method of
    the recipe runs, so on the settings a recipe sees they return a value. *)
Class ConanTools : Type := {
  is_msvc : ConanFile → bool;
  msvc_runtime_flag : ConanFile → string;
  Version_lt : string → string → bool
}.

(** ** [generate] *)

(** A value stored in the toolchain: the recipe stores booleans and strings. *)
Inductive Value : Type :=
  | VBool (b : bool)
  | VStr (s : string).

(** [CMakeToolchain]: the two dictionaries the recipe writes to. *)
Record CMakeToolchain : Type := mkToolchain {
  cache_variables : gmap string Value;
  variables : gmap string Value
}.

(** [CMakeToolchain(self)]: both dictionaries start empty. *)
Definition new_toolchain : CMakeToolchain := mkToolchain ∅ ∅.

Definition set_cache_variable (k : string) (v : Value) (tc : CMakeToolchain)
    : CMakeToolchain :=
  mkToolchain (<[k := v]> (cache_variables tc)) (variables tc).

Definition set_variable (k : string) (v : Value) (tc : CMakeToolchain)
    : CMakeToolchain :=
  mkToolchain (cache_variables tc) (<[k := v]> (variables tc)).

Section Recipe.
Context `{!ConanTools}.

Definition generate (self : ConanFile) : Result CMakeToolchain :=
  let tc := new_toolchain in
  let tc := set_cache_variable "CMAKE_POLICY_DEFAULT_CMP0077" (VStr "NEW") tc in
  let tc :=
    if Version_lt (version self) "3.21"
    then set_cache_variable "CMAKE_POLICY_DEFAULT_CMP0115" (VStr "OLD") tc
    else tc in
  let tc :=
    if is_msvc self
    then set_variable "BUILD_SHARED_RUNTIME"
           (VBool (bool_decide (msvc_runtime_flag self = "MD"))) tc
    else tc in
  let tc :=
    if setting_is "os" "Macos" self && setting_is "arch" "armv8" self
    then set_variable "WITH_CR64S" (VBool false)
           (set_variable "WITH_CR32S" (VBool false) tc)
    else tc in
  let tc := set_variable "BUILD_TESTS" (VBool false) tc in
  with_openmp ← get_option "with_openmp" self;
  let tc := set_variable "WITH_OPENMP" (VBool with_openmp) tc in
  with_lsr_bindings ← get_option "with_lsr_bindings" self;
  let tc := set_variable "WITH_LSR_BINDINGS" (VBool with_lsr_bindings) tc in
  Ok tc.

End Recipe.

(** ** [package_info] *)

(** [self.cpp_info.components[name]]: the entry, created on first use. *)
Definition component (name : string) (cpp : gmap string Component) : Component :=
  default new_component (cpp !! name).

(** An assignment or call on [self.cpp_info.components[name]]. *)
Definition on_component (name : string) (f : Component → Component)
    (self : ConanFile) : ConanFile :=
  with_cpp_info (<[name := f (component name (cpp_info self))]> (cpp_info self)) self.

Definition set_property (k v : string) (c : Component) : Component :=
  mkComponent (<[k := v]> (properties c)) (libs c) (system_libs c) (defines c)
              (exelinkflags c) (sharedlinkflags c) (requires c).

Definition set_libs (l : list string) (c : Component) : Component :=
  mkComponent (properties c) l (system_libs c) (defines c)
              (exelinkflags c) (sharedlinkflags c) (requires c).

Definition set_system_libs (l : list string) (c : Component) : Component :=
  mkComponent (properties c) (libs c) l (defines c)
              (exelinkflags c) (sharedlinkflags c) (requires c).

Definition defines_append (d : string) (c : Component) : Component :=
  mkComponent (properties c) (libs c) (system_libs c) (defines c ++ [d])
              (exelinkflags c) (sharedlinkflags c) (requires c).

Definition set_exelinkflags (l : list string) (c : Component) : Component :=
  mkComponent (properties c) (libs c) (system_libs c) (defines c)
              l (sharedlinkflags c) (requires c).

Definition set_sharedlinkflags (l : list string) (c : Component) : Component :=
  mkComponent (properties c) (libs c) (system_libs c) (defines c)
              (exelinkflags c) l (requires c).

Definition set_requires (l : list string) (c : Component) : Component :=
  mkComponent (properties c) (libs c) (system_libs c) (defines c)
              (exelinkflags c) (sharedlinkflags c) l.

(** [self.settings.os == "Windows" and self.options.shared]: the option is
    read only when the first operand is true. *)
Definition windows_and_shared (self : ConanFile) : Result bool :=
  if setting_is "os" "Windows" self then get_option "shared" self else Ok false.

(** [not self.options.shared and self.options.with_openmp]: the second
    option is read only when [shared] is false. *)
Definition static_and_openmp (self : ConanFile) : Result bool :=
  shared ← get_option "shared" self;
  if negb shared then get_option "with_openmp" self else Ok false.

(** The chain of tests on [self.settings.compiler]. *)
Definition openmp_flags (self : ConanFile) : list string :=
  if setting_in "compiler" ["Visual Studio"; "msvc"] self then ["-openmp"]
  else if setting_in "compiler" ["gcc"; "clang"] self then ["-fopenmp"]
  else if setting_is "compiler" "apple-clang" self then ["-Xpreprocessor"; "-fopenmp"]
  else [].

Definition package_info (self : ConanFile) : Result ConanFile :=
  (* core component *)
  let self := on_component "core" (set_property "pkg_config_name" "soxr") self in
  let self := on_component "core" (set_libs ["soxr"]) self in
  let self :=
    if setting_in "os" ["FreeBSD"; "Linux"] self
    then on_component "core" (set_system_libs ["m"]) self
    else self in
  dll ← windows_and_shared self;
  let self :=
    if dll : bool then on_component "core" (defines_append "SOXR_DLL") self
    else self in
  omp ← static_and_openmp self;
  let self :=
    if omp : bool
    then on_component "core" (set_sharedlinkflags (openmp_flags self))
           (on_component "core" (set_exelinkflags (openmp_flags self)) self)
    else self in
  (* lsr component *)
  with_lsr_bindings ← get_option "with_lsr_bindings" self;
  if with_lsr_bindings : bool
  then
    let self := on_component "lsr" (set_property "pkg_config_name" "soxr-lsr") self in
    let self := on_component "lsr" (set_libs ["soxr-lsr"]) self in
    dll ← windows_and_shared self;
    let self :=
      if dll : bool then on_component "lsr" (defines_append "SOXR_DLL") self
      else self in
    let self := on_component "lsr" (set_requires ["core"]) self in
    Ok self
  else Ok self.

(** ** [_extract_pffft_license] *)

(** *** Python strings: [str.find] and slicing *)

(** [find_from sub s i]: the search of [s.find(sub)], where [s] is what is
    left of the text from index [i] on.  The lowest index at which [sub]
    starts, and [-1] when there is none. *)
Fixpoint find_from (sub s : string) (i : Z) : Z :=
  if String.prefix sub s then i
  else match s with
       | EmptyString => (-1)%Z
       | String _ s' => find_from sub s' (i + 1)%Z
       end.

(** [s.find(sub)] *)
Definition find (s sub : string) : Z := find_from sub s 0%Z.

(** A bound of a slice, as Python adjusts it to a text of length [len]:
    a negative bound counts from the end, and both are clipped. *)
Definition slice_index (len i : Z) : Z :=
  if (i <? 0)%Z then Z.max (i + len) 0 else Z.min i len.

(** [s[a:b]] *)
Definition slice (s : string) (a b : Z) : string :=
  let len := Z.of_nat (String.length s) in
  let lo := slice_index len a in
  let hi := slice_index len b in
  substring (Z.to_nat lo) (Z.to_nat (hi - lo)) s.

(** *** Files: [os.path.join], [load], [save] *)

Fixpoint ends_with_sep (s : string) : bool :=
  match s with
  | EmptyString => false
  | String c EmptyString => Ascii.eqb c "/"
  | String _ s' => ends_with_sep s'
  end.

(** [os.path.join(a, *p)] of posixpath. *)
Definition path_join (a : string) (p : list string) : string :=
  fold_left (fun path b =>
    if String.prefix "/" b then b
    else if bool_decide (path = "") || ends_with_sep path then path ++ b
    else path ++ "/" ++ b) p a.

(** The file system: the text of each file, by path. *)
Definition load (path : string) (fs : gmap string string) : Result string :=
  match fs !! path with
  | Some text => Ok text
  | None => Raise (FileNotFoundError path)
  end.

Definition save (path content : string) (fs : gmap string string)
    : gmap string string :=
  <[path := content]> fs.

Definition pffft_c_path (self : ConanFile) : string :=
  path_join (source_folder self) ["src"; "pffft.c"].

Definition license_path (self : ConanFile) : string :=
  path_join (package_folder self) ["licenses"; "LICENSE"].

Definition _extract_pffft_license (self : ConanFile) (fs : gmap string string)
    : Result (gmap string string) :=
  pffft_c ← load (pffft_c_path self) fs;
  let license_contents :=
    slice pffft_c (find pffft_c "/* Copyright" + 3)
                  (find pffft_c "modern CPUs." + 13) in
  Ok (save (license_path self) license_contents fs).

(** ** Conan's own helpers

    An implementation of [ConanTools] that follows Conan, for running the
    recipe on concrete inputs.  The theorems about the recipe hold for any
    implementation. *)
Module Conan.

(** *** [conan.tools.scm.Version] *)

(** One dot-separated item of a version: an integer when it reads as one
    (here: when it is made of ASCII digits), the text itself otherwise. *)
Inductive VersionItem : Type :=
  | VInt (n : N)
  | VText (s : string).

Definition is_digit (c : ascii) : bool :=
  (48 <=? N_of_ascii c)%N && (N_of_ascii c <=? 57)%N.

Fixpoint all_digits (s : string) : bool :=
  match s with
  | EmptyString => true
  | String c s' => is_digit c && all_digits s'
  end.

Fixpoint int_of_digits (acc : N) (s : string) : N :=
  match s with
  | EmptyString => acc
  | String c s' => int_of_digits (10 * acc + (N_of_ascii c - 48))%N s'
  end.

Definition version_item (s : string) : VersionItem :=
  if negb (bool_decide (s = "")) && all_digits s
  then VInt (int_of_digits 0%N s)
  else VText s.

Definition item_str (i : VersionItem) : string :=
  match i with
  | VInt n => NilEmpty.string_of_uint (N.to_uint n)
  | VText s => s
  end.

Definition item_eqb (a b : VersionItem) : bool :=
  match a, b with
  | VInt n, VInt m => (n =? m)%N
  | VText s, VText t => String.eqb s t
  | _, _ => false
  end.

(** Integers compare as integers; an integer and a text compare as texts. *)
Definition item_ltb (a b : VersionItem) : bool :=
  match a, b with
  | VInt n, VInt m => (n <? m)%N
  | _, _ => String.ltb (item_str a) (item_str b)
  end.

(** Tuples of items compare as Python tuples do. *)
Fixpoint items_eqb (a b : list VersionItem) : bool :=
  match a, b with
  | [], [] => true
  | x :: a', y :: b' => item_eqb x y && items_eqb a' b'
  | _, _ => false
  end.

Fixpoint items_ltb (a b : list VersionItem) : bool :=
  match a, b with
  | _, [] => false
  | [], _ :: _ => true
  | x :: a', y :: b' => if item_eqb x y then items_ltb a' b' else item_ltb x y
  end.

(** [s.split(sep)] *)
Fixpoint split (sep : ascii) (s : string) : list string :=
  match s with
  | EmptyString => [EmptyString]
  | String c s' =>
      if Ascii.eqb c sep then EmptyString :: split sep s'
      else match split sep s' with
           | h :: t => String c h :: t
           | [] => [String c EmptyString]
           end
  end.

(** [s.split(sep, 1)] when [sep] occurs: the text before the first [sep]
    and the text after it. *)
Fixpoint split_first (sep : ascii) (s : string) : option (string * string) :=
  match s with
  | EmptyString => None
  | String c s' =>
      if Ascii.eqb c sep then Some (EmptyString, s')
      else match split_first sep s' with
           | Some (a, b) => Some (String c a, b)
           | None => None
           end
  end.

(** [s.rsplit(sep, 1)] when [sep] occurs: split at the last [sep]. *)
Fixpoint split_last (sep : ascii) (s : string) : option (string * string) :=
  match s with
  | EmptyString => None
  | String c s' =>
      match split_last sep s' with
      | Some (a, b) => Some (String c a, b)
      | None => if Ascii.eqb c sep then Some (EmptyString, s') else None
      end
  end.

Definition is_zero (i : VersionItem) : bool :=
  match i with
  | VInt n => (n =? 0)%N
  | VText _ => false
  end.

(** The items without the trailing zeros. *)
Definition nonzero (l : list VersionItem) : list VersionItem :=
  fold_right (fun x acc =>
    match acc with
    | [] => if is_zero x then [] else [x]
    | _ :: _ => x :: acc
    end) [] l.

Definition qualifier_items (s : string) : list VersionItem :=
  nonzero (map version_item (split "." s)).

(** A parsed version: the main items, the pre-release after the first "-"
    and the build after the last "+", each without trailing zeros. *)
Record Version : Type := mkVersion {
  nonzero_items : list VersionItem;
  pre : option (list VersionItem);
  build : option (list VersionItem)
}.

Definition parse (value : string) : Version :=
  let '(value, b) :=
    match split_last "+" value with
    | Some (v, b) => (v, Some (qualifier_items b))
    | None => (value, None)
    end in
  let '(value, p) :=
    match split_first "-" value with
    | Some (v, p) => (v, Some (qualifier_items p))
    | None => (value, None)
    end in
  mkVersion (qualifier_items value) p b.

(** [a or ""] compared with [b or ""], for two builds. *)
Definition build_eqb (a b : option (list VersionItem)) : bool :=
  match a, b with
  | None, None => true
  | Some x, Some y => items_eqb x y
  | Some x, None | None, Some x => items_eqb x [VText ""]
  end.

Definition build_ltb (a b : option (list VersionItem)) : bool :=
  match a, b with
  | None, None => false
  | Some x, Some y => items_ltb x y
  | Some x, None => false
  | None, Some y => negb (items_eqb y [VText ""])
  end.

(** [Version.__lt__] *)
Definition lt (a b : Version) : bool :=
  match pre a, pre b with
  | Some p, Some q =>
      if negb (items_eqb (nonzero_items a) (nonzero_items b))
      then items_ltb (nonzero_items a) (nonzero_items b)
      else if negb (items_eqb p q) then items_ltb p q
      else build_ltb (build a) (build b)
  | Some _, None =>
      if items_eqb (nonzero_items a) (nonzero_items b) then true
      else items_ltb (nonzero_items a) (nonzero_items b)
  | None, Some _ =>
      if items_eqb (nonzero_items a) (nonzero_items b) then false
      else items_ltb (nonzero_items a) (nonzero_items b)
  | None, None =>
      if negb (items_eqb (nonzero_items a) (nonzero_items b))
      then items_ltb (nonzero_items a) (nonzero_items b)
      else build_ltb (build a) (build b)
  end.

(** [Version(v) < other] for a string [other]. *)
Definition Version_lt_str (v other : string) : bool :=
  lt (parse v) (parse other).

(** *** [conan.tools.microsoft] *)

Definition is_msvc (self : ConanFile) : bool :=
  setting_in "compiler" ["Visual Studio"; "msvc"] self.

(** The flag of the runtime in use.  On a runtime that the settings model
    of Conan does not allow, and so no recipe receives, it is empty. *)
Definition msvc_runtime_flag (self : ConanFile) : string :=
  let runtime := settings self !! "compiler.runtime" in
  if setting_is "compiler" "Visual Studio" self then default "" runtime
  else if setting_is "compiler" "clang" self
          && setting_in "compiler.runtime" ["MD"; "MT"; "MTd"; "MDd"] self
  then default "" runtime
  else
    let d := if setting_is "compiler.runtime_type" "Debug" self then "d" else "" in
    match runtime with
    | Some "static" => "MT" ++ d
    | Some "dynamic" => "MD" ++ d
    | _ => ""
    end.

#[global] Instance tools : ConanTools :=
  Build_ConanTools is_msvc msvc_runtime_flag Version_lt_str.

End Conan.

(** ** The methods in the order Conan calls them *)

Section Lifecycle.
Context `{!ConanTools}.

(** Option normalization: [config_options], then [configure]. *)
Definition normalize (self : ConanFile) : Result ConanFile :=
  self ← config_options self;
  configure self.

(** A whole run: normalization, [generate] before the build and
    [package_info] after it.  Returns the toolchain and the recipe object
    that holds the components. *)
Definition run_recipe (self : ConanFile) : Result (CMakeToolchain * ConanFile) :=
  self ← normalize self;
  tc ← generate self;
  self ← package_info self;
  Ok (tc, self).

End Lifecycle.

(** * Properties *)

(** ** Options and settings *)

Lemma get_option_Some name self b :
  options self !! name = Some b → get_option name self = Ok b.
Proof. unfold get_option. by intros ->. Qed.

Lemma setting_is_true name value self :
  setting_is name value self = true ↔ settings self !! name = Some value.
Proof. unfold setting_is. apply bool_decide_eq_true. Qed.

Lemma setting_in_true name values self :
  setting_in name values self = true ↔
  ∃ v, v ∈ values ∧ settings self !! name = Some v.
Proof.
  unfold setting_in. rewrite existsb_exists. split.
  - intros (v & Hin & Hv). exists v. split.
    + by apply list_elem_of_In.
    + by apply setting_is_true.
  - intros (v & Hin & Hv). exists v. split.
    + by apply list_elem_of_In.
    + by apply setting_is_true.
Qed.

(** What normalization does to a recipe object whose options are all
    defined: [fPIC] goes when the system is Windows or the library is
    shared, the other options stay, two settings of the compiler go. *)
Lemma normalize_defined self sh pic :
  options self !! "shared" = Some sh →
  options self !! "fPIC" = Some pic →
  normalize self =
    Ok (with_settings
          (delete "compiler.cppstd" (delete "compiler.libcxx" (settings self)))
          (if setting_is "os" "Windows" self || sh
           then options_rm_safe "fPIC" self else self)).
Proof.
  intros Hsh Hpic. unfold normalize, config_options, del_option.
  rewrite Hpic. destruct (setting_is "os" "Windows" self) eqn:Hos; cbn.
  - unfold configure, get_option. cbn.
    rewrite lookup_delete_ne by done. rewrite Hsh. cbn.
    destruct sh; cbn; unfold settings_rm_safe, options_rm_safe, with_settings,
      with_options; cbn; by rewrite ?delete_delete_eq.
  - unfold configure, get_option. rewrite Hsh. cbn.
    destruct sh; cbn; done.
Qed.

Lemma normalize_new ver s v src pkg :
  ∃ self',
    normalize (new_conanfile ver s v src pkg) = Ok self' ∧
    version self' = ver ∧
    settings self' = delete "compiler.cppstd" (delete "compiler.libcxx" s) ∧
    options self' !! "shared" = Some (opt_shared v) ∧
    options self' !! "with_openmp" = Some (opt_with_openmp v) ∧
    options self' !! "with_lsr_bindings" = Some (opt_with_lsr_bindings v) ∧
    options self' !! "fPIC" =
      (if bool_decide (s !! "os" = Some "Windows") || opt_shared v
       then None else Some (opt_fPIC v)) ∧
    cpp_info self' = ∅.
Proof.
  eexists. split.
  - apply (normalize_defined _ (opt_shared v) (opt_fPIC v)); done.
  - unfold setting_is. cbn.
    destruct (bool_decide (s !! "os" = Some "Windows") || opt_shared v); cbn;
      repeat split; done.
Qed.

(** The settings that the recipe tests survive normalization. *)
Lemma normalized_setting (s : gmap string string) name :
  name ≠ "compiler.cppstd" → name ≠ "compiler.libcxx" →
  delete "compiler.cppstd" (delete "compiler.libcxx" s) !! name = s !! name.
Proof. intros H1 H2. by rewrite !lookup_delete_ne. Qed.

(** ** [generate] *)

Section Generate.
Context `{!ConanTools}.

Lemma generate_defined self omp lsr :
  options self !! "with_openmp" = Some omp →
  options self !! "with_lsr_bindings" = Some lsr →
  ∃ tc, generate self = Ok tc.
Proof.
  intros Ho Hl. unfold generate.
  rewrite (get_option_Some _ _ _ Ho), (get_option_Some _ _ _ Hl). cbn.
  by eexists.
Qed.

Lemma generate_cache_variables self tc :
  generate self = Ok tc →
  cache_variables tc =
    if Version_lt (version self) "3.21"
    then <["CMAKE_POLICY_DEFAULT_CMP0115" := VStr "OLD"]>
           {["CMAKE_POLICY_DEFAULT_CMP0077" := VStr "NEW"]}
    else {["CMAKE_POLICY_DEFAULT_CMP0077" := VStr "NEW"]}.
Proof.
  unfold generate.
  destruct (get_option "with_openmp" self); [|done].
  destruct (get_option "with_lsr_bindings" self); [|done]. cbn.
  intros [= <-]. cbn.
  destruct (Version_lt _ _), (is_msvc self),
    (setting_is "os" "Macos" self && setting_is "arch" "armv8" self); done.
Qed.

Lemma generate_variables_msvc self tc :
  generate self = Ok tc →
  variables tc !! "BUILD_SHARED_RUNTIME" =
    if is_msvc self
    then Some (VBool (bool_decide (msvc_runtime_flag self = "MD")))
    else None.
Proof.
  unfold generate.
  destruct (get_option "with_openmp" self); [|done].
  destruct (get_option "with_lsr_bindings" self); [|done]. cbn.
  intros [= <-]. cbn.
  destruct (Version_lt _ _), (is_msvc self),
    (setting_is "os" "Macos" self && setting_is "arch" "armv8" self);
    cbn; by simplify_map_eq.
Qed.

Lemma generate_variables_not_cache self tc :
  generate self = Ok tc →
  variables tc !! "CMAKE_POLICY_DEFAULT_CMP0115" = None.
Proof.
  unfold generate.
  destruct (get_option "with_openmp" self); [|done].
  destruct (get_option "with_lsr_bindings" self); [|done]. cbn.
  intros [= <-]. cbn.
  destruct (Version_lt _ _), (is_msvc self),
    (setting_is "os" "Macos" self && setting_is "arch" "armv8" self);
    cbn; by simplify_map_eq.
Qed.

End Generate.

(** ** [package_info] *)

Lemma openmp_flags_on_component name f self :
  openmp_flags (on_component name f self) = openmp_flags self.
Proof. reflexivity. Qed.

Lemma setting_is_on_component n v name f self :
  setting_is n v (on_component name f self) = setting_is n v self.
Proof. reflexivity. Qed.

Lemma setting_in_on_component n vs name f self :
  setting_in n vs (on_component name f self) = setting_in n vs self.
Proof. reflexivity. Qed.

Lemma get_option_on_component o name f self :
  get_option o (on_component name f self) = get_option o self.
Proof. reflexivity. Qed.

Lemma windows_and_shared_on_component name f self :
  windows_and_shared (on_component name f self) = windows_and_shared self.
Proof. reflexivity. Qed.

Lemma static_and_openmp_on_component name f self :
  static_and_openmp (on_component name f self) = static_and_openmp self.
Proof. reflexivity. Qed.

Lemma windows_and_shared_defined self sh :
  options self !! "shared" = Some sh →
  windows_and_shared self = Ok (setting_is "os" "Windows" self && sh).
Proof.
  intros Hsh. unfold windows_and_shared.
  rewrite (get_option_Some _ _ _ Hsh). by destruct (setting_is _ _ _).
Qed.

Lemma static_and_openmp_defined self sh omp :
  options self !! "shared" = Some sh →
  options self !! "with_openmp" = Some omp →
  static_and_openmp self = Ok (negb sh && omp).
Proof.
  intros Hsh Homp. unfold static_and_openmp.
  rewrite (get_option_Some _ _ _ Hsh), (get_option_Some _ _ _ Homp).
  by destruct sh.
Qed.

Lemma bind_Ok {A B} (a : A) (k : A → Result B) : Ok a ≫= k = k a.
Proof. reflexivity. Qed.

Lemma lookup_on_component_eq name f self :
  cpp_info (on_component name f self) !! name =
  Some (f (component name (cpp_info self))).
Proof. unfold on_component. cbn. apply lookup_insert_eq. Qed.

Lemma lookup_on_component_ne name name' f self :
  name ≠ name' →
  cpp_info (on_component name f self) !! name' = cpp_info self !! name'.
Proof. intros. unfold on_component. cbn. by apply lookup_insert_ne. Qed.

Lemma component_on_component_eq name f self :
  component name (cpp_info (on_component name f self)) =
  f (component name (cpp_info self)).
Proof. unfold component at 1. by rewrite lookup_on_component_eq. Qed.

Lemma component_on_component_ne name name' f self :
  name ≠ name' →
  component name' (cpp_info (on_component name f self)) =
  component name' (cpp_info self).
Proof. intros. unfold component. by rewrite lookup_on_component_ne. Qed.

Lemma component_empty name : component name ∅ = new_component.
Proof. unfold component. by rewrite lookup_empty. Qed.

(** Look a component up through the assignments made to the components. *)
Ltac components :=
  repeat first
    [ rewrite lookup_on_component_eq
    | rewrite component_on_component_eq
    | rewrite lookup_on_component_ne by done
    | rewrite component_on_component_ne by done ].

Ltac through_components :=
  rewrite ?setting_in_on_component, ?setting_is_on_component,
    ?windows_and_shared_on_component, ?static_and_openmp_on_component,
    ?get_option_on_component, ?openmp_flags_on_component.

(** The components [package_info] leaves in a fresh [cpp_info], when the
    three options it reads are defined. *)
Lemma package_info_defined self (sh omp lsr : bool) :
  options self !! "shared" = Some sh →
  options self !! "with_openmp" = Some omp →
  options self !! "with_lsr_bindings" = Some lsr →
  cpp_info self = ∅ →
  ∃ self',
    package_info self = Ok self' ∧
    cpp_info self' !! "core" =
      Some (mkComponent {["pkg_config_name" := "soxr"]} ["soxr"]
              (if setting_in "os" ["FreeBSD"; "Linux"] self then ["m"] else [])
              (if setting_is "os" "Windows" self && sh then ["SOXR_DLL"] else [])
              (if negb sh && omp then openmp_flags self else [])
              (if negb sh && omp then openmp_flags self else [])
              []) ∧
    cpp_info self' !! "lsr" =
      (if lsr
       then Some (mkComponent {["pkg_config_name" := "soxr-lsr"]} ["soxr-lsr"] []
                    (if setting_is "os" "Windows" self && sh
                     then ["SOXR_DLL"] else [])
                    [] [] ["core"])
       else None).
Proof.
  intros Hsh Homp Hlsr Hcpp.
  pose proof (windows_and_shared_defined _ _ Hsh) as Hdll.
  pose proof (static_and_openmp_defined _ _ _ Hsh Homp) as Hflags.
  pose proof (get_option_Some _ _ _ Hlsr) as Hget.
  unfold package_info. through_components.
  destruct (setting_in "os" ["FreeBSD"; "Linux"] self);
    through_components; rewrite Hdll, bind_Ok;
    destruct (setting_is "os" "Windows" self && sh);
    through_components; rewrite Hflags, bind_Ok;
    destruct (negb sh && omp);
    through_components; rewrite Hget, bind_Ok;
    destruct lsr.
  all: through_components; rewrite ?Hdll, ?bind_Ok.
  all: eexists; split; [reflexivity|].
  all: split; components; rewrite ?Hcpp, ?component_empty; reflexivity.
Qed.

(** ** A whole run *)

Lemma setting_is_same_settings name value self self' :
  settings self' !! name = settings self !! name →
  setting_is name value self' = setting_is name value self.
Proof. unfold setting_is. by intros ->. Qed.

Lemma setting_in_same_settings name values self self' :
  settings self' !! name = settings self !! name →
  setting_in name values self' = setting_in name values self.
Proof.
  intros H. unfold setting_in. induction values as [|v values IH]; [done|].
  cbn. by rewrite IH, (setting_is_same_settings _ _ _ _ H).
Qed.

Lemma openmp_flags_same_settings self self' :
  settings self' !! "compiler" = settings self !! "compiler" →
  openmp_flags self' = openmp_flags self.
Proof.
  intros H. unfold openmp_flags.
  by rewrite !(setting_in_same_settings _ _ _ _ H),
    (setting_is_same_settings _ _ _ _ H).
Qed.

(** Every run on declared options returns, and leaves these components. *)
Lemma run_recipe_new `{!ConanTools} ver s v src pkg :
  let self := new_conanfile ver s v src pkg in
  ∃ tc self',
    run_recipe self = Ok (tc, self') ∧
    cpp_info self' !! "core" =
      Some (mkComponent {["pkg_config_name" := "soxr"]} ["soxr"]
              (if setting_in "os" ["FreeBSD"; "Linux"] self then ["m"] else [])
              (if setting_is "os" "Windows" self && opt_shared v
               then ["SOXR_DLL"] else [])
              (if negb (opt_shared v) && opt_with_openmp v
               then openmp_flags self else [])
              (if negb (opt_shared v) && opt_with_openmp v
               then openmp_flags self else [])
              []) ∧
    cpp_info self' !! "lsr" =
      (if opt_with_lsr_bindings v
       then Some (mkComponent {["pkg_config_name" := "soxr-lsr"]} ["soxr-lsr"] []
                    (if setting_is "os" "Windows" self && opt_shared v
                     then ["SOXR_DLL"] else [])
                    [] [] ["core"])
       else None).
Proof.
  intros self.
  destruct (normalize_new ver s v src pkg)
    as (self1 & Hn & _ & Hset & Hsh & Homp & Hlsr & _ & Hcpp).
  destruct (generate_defined self1 _ _ Homp Hlsr) as [tc Hg].
  destruct (package_info_defined self1 _ _ _ Hsh Homp Hlsr Hcpp)
    as (self' & Hp & Hcore & Hl).
  exists tc, self'. split.
  - unfold run_recipe. subst self. by rewrite Hn, bind_Ok, Hg, bind_Ok, Hp.
  - assert (Hos : settings self1 !! "os" = settings self !! "os")
      by (rewrite Hset; by apply normalized_setting).
    assert (Hc : settings self1 !! "compiler" = settings self !! "compiler")
      by (rewrite Hset; by apply normalized_setting).
    rewrite Hcore, Hl.
    by rewrite (setting_in_same_settings _ _ _ _ Hos),
      (setting_is_same_settings _ _ _ _ Hos),
      (openmp_flags_same_settings _ _ Hc).
Qed.

(** ** [str.find] *)

(** [sub] occurs somewhere in [s]. *)
Definition occurs_in (sub s : string) : Prop :=
  ∃ before after, s = before ++ sub ++ after.

Lemma append_cons c s t : String c s ++ t = String c (s ++ t).
Proof. reflexivity. Qed.

Lemma prefix_true_iff sub s :
  String.prefix sub s = true ↔ ∃ after, s = sub ++ after.
Proof.
  revert s. induction sub as [|a sub IH]; intros s; cbn.
  - destruct s; cbn; (split; [|done]); intros _; by eexists.
  - destruct s as [|b s]; cbn.
    + split; [done|]. by intros [after H].
    + destruct (ascii_dec a b) as [->|Hab].
      * rewrite IH.
        split; intros [after H]; exists after; rewrite append_cons in *;
          congruence.
      * split; [done|]. intros [after H]. rewrite append_cons in H. congruence.
Qed.

Lemma occurs_in_prefix sub s : String.prefix sub s = true → occurs_in sub s.
Proof.
  intros [after ->]%prefix_true_iff. by exists "", after.
Qed.

Lemma occurs_in_tail sub c s :
  String.prefix sub (String c s) = false →
  occurs_in sub (String c s) ↔ occurs_in sub s.
Proof.
  intros Hp. split.
  - intros (before & after & H).
    destruct before as [|c' before]; [change (String c s = sub ++ after) in H
                                     |rewrite append_cons in H].
    + assert (String.prefix sub (String c s) = true) as Ht
        by (apply prefix_true_iff; by exists after).
      congruence.
    + exists before, after. congruence.
  - intros (before & after & ->). by exists (String c before), after.
Qed.

(** [find] answers [-1] exactly when the text searched for does not occur. *)
Lemma find_from_absent sub s i :
  (0 ≤ i)%Z → find_from sub s i = (-1)%Z ↔ ¬ occurs_in sub s.
Proof.
  revert i. induction s as [|c s IH]; intros i Hi; cbn [find_from].
  - destruct (String.prefix sub "") eqn:Hp.
    + split; [lia|]. intros Hn. destruct Hn. by apply occurs_in_prefix.
    + split; [|done]. intros _ (before & after & H).
      destruct before; [|done]. change ("" = sub ++ after) in H.
      assert (String.prefix sub "" = true) as Ht
        by (apply prefix_true_iff; by exists after).
      congruence.
  - destruct (String.prefix sub (String c s)) eqn:Hp.
    + split; [lia|]. intros Hn. destruct Hn. by apply occurs_in_prefix.
    + rewrite (occurs_in_tail _ _ _ Hp). apply IH. lia.
Qed.

Lemma find_absent s sub : find s sub = (-1)%Z ↔ ¬ occurs_in sub s.
Proof. unfold find. by apply find_from_absent. Qed.

(** * The recipe on concrete inputs *)

Definition linux_gcc : gmap string string :=
  {[ "os" := "Linux"; "arch" := "x86_64"; "compiler" := "gcc";
     "compiler.libcxx" := "libstdc++11"; "build_type" := "Release" ]}.

Definition windows_msvc : gmap string string :=
  {[ "os" := "Windows"; "arch" := "x86_64"; "compiler" := "msvc";
     "compiler.runtime" := "dynamic"; "compiler.runtime_type" := "Release";
     "build_type" := "Release" ]}.

Definition linux_recipe : ConanFile :=
  new_conanfile "0.1.3" linux_gcc default_options "/build/src" "/build/pkg".

Definition windows_recipe : ConanFile :=
  new_conanfile "0.1.3" windows_msvc default_options "/build/src" "/build/pkg".

(** A [pffft.c] with both anchors of the license comment. *)
Definition fs_with_license : gmap string string :=
  {[ "/build/src/src/pffft.c" :=
       "x /* Copyright (c) 2013. Fast on modern CPUs. */ y" ]}.

(** A [pffft.c] whose comment lacks the closing anchor. *)
Definition fs_without_closing_anchor : gmap string string :=
  {[ "/build/src/src/pffft.c" := "/* Copyright (c) 2013 */ int x;" ]}.

(** * The claims *)

(** ** License extraction *)

(** C1 (as the code has it): whenever [pffft.c] can be loaded,
    [_extract_pffft_license] raises nothing and writes the license file,
    with the slice of the text from [find("/* Copyright") + 3] to
    [find("modern CPUs.") + 13].  An anchor that does not occur makes [find]
    answer [-1], so the slice then starts at index 2, respectively ends at
    index 12. *)
Theorem extract_pffft_license_always_writes self fs pffft_c :
  fs !! pffft_c_path self = Some pffft_c →
  _extract_pffft_license self fs =
    Ok (<[license_path self :=
            slice pffft_c (find pffft_c "/* Copyright" + 3)
                          (find pffft_c "modern CPUs." + 13)]> fs) ∧
  (¬ occurs_in "/* Copyright" pffft_c →
     (find pffft_c "/* Copyright" + 3 = 2)%Z) ∧
  (¬ occurs_in "modern CPUs." pffft_c →
     (find pffft_c "modern CPUs." + 13 = 12)%Z).
Proof.
  intros Hload. split; [|split].
  - unfold _extract_pffft_license, load. by rewrite Hload.
  - intros ->%find_absent. done.
  - intros ->%find_absent. done.
Qed.

Lemma extract_pffft_license_always_writes_witness :
  fs_with_license !! pffft_c_path linux_recipe =
    Some "x /* Copyright (c) 2013. Fast on modern CPUs. */ y" ∧
  _extract_pffft_license linux_recipe fs_with_license =
    Ok (<["/build/pkg/licenses/LICENSE" :=
            "Copyright (c) 2013. Fast on modern CPUs. "]> fs_with_license).
Proof.
  split; [reflexivity|].
  exact (proj1 (extract_pffft_license_always_writes
                  linux_recipe fs_with_license _ eq_refl)).
Defined.

(** C1 (as stated) fails: on a [pffft.c] in which "modern CPUs." does not
    occur, the extraction raises nothing and writes a license file that did
    not exist before, holding the nine characters "Copyright". *)
Lemma extract_pffft_license_missing_anchor_writes :
  ¬ occurs_in "modern CPUs." "/* Copyright (c) 2013 */ int x;" ∧
  fs_without_closing_anchor !! pffft_c_path linux_recipe =
    Some "/* Copyright (c) 2013 */ int x;" ∧
  fs_without_closing_anchor !! license_path linux_recipe = None ∧
  raises (_extract_pffft_license linux_recipe fs_without_closing_anchor) = false ∧
  _extract_pffft_license linux_recipe fs_without_closing_anchor =
    Ok (<[license_path linux_recipe := "Copyright"]> fs_without_closing_anchor).
Proof.
  split; [apply find_absent; vm_compute; reflexivity|].
  repeat split; vm_compute; reflexivity.
Qed.

(** ** Option normalization *)

(** C6: after [config_options] and [configure], run on the options the
    recipe declares, [fPIC] is not a defined option when the system is
    Windows, and not when [shared] is true, on any system.  The value of
    [shared] is the one given. *)
Theorem fPIC_removed_by_normalization ver s v src pkg :
  ∃ self',
    normalize (new_conanfile ver s v src pkg) = Ok self' ∧
    options self' !! "shared" = Some (opt_shared v) ∧
    (s !! "os" = Some "Windows" → options self' !! "fPIC" = None) ∧
    (opt_shared v = true → options self' !! "fPIC" = None).
Proof.
  destruct (normalize_new ver s v src pkg)
    as (self' & Hn & _ & _ & Hsh & _ & _ & Hpic & _).
  exists self'. repeat split; [done..| |].
  - intros Hos. rewrite Hpic. by rewrite (bool_decide_eq_true_2 _ Hos).
  - intros Hs. by rewrite Hpic, Hs, orb_true_r.
Qed.

(** ** The components *)

Section Components.
Context `{!ConanTools}.

(** C2: for every choice of option values and every settings, the run
    returns: no method raises, and the components hold "core". *)
Theorem run_recipe_total ver s v src pkg :
  ∃ tc self',
    run_recipe (new_conanfile ver s v src pkg) = Ok (tc, self') ∧
    raises (run_recipe (new_conanfile ver s v src pkg)) = false ∧
    is_Some (cpp_info self' !! "core").
Proof.
  destruct (run_recipe_new ver s v src pkg) as (tc & self' & Hrun & Hcore & _).
  exists tc, self'. rewrite Hrun, Hcore. by repeat split.
Qed.

(** C3: the components hold "lsr" exactly when [with_lsr_bindings] is true,
    and then it requires exactly "core" and exposes exactly "soxr-lsr". *)
Theorem lsr_component_iff_with_lsr_bindings ver s v src pkg :
  ∃ tc self',
    run_recipe (new_conanfile ver s v src pkg) = Ok (tc, self') ∧
    (is_Some (cpp_info self' !! "lsr") ↔ opt_with_lsr_bindings v = true) ∧
    (∀ lsr, cpp_info self' !! "lsr" = Some lsr →
            requires lsr = ["core"] ∧ libs lsr = ["soxr-lsr"]).
Proof.
  destruct (run_recipe_new ver s v src pkg) as (tc & self' & Hrun & _ & Hlsr).
  exists tc, self'. split; [done|]. rewrite Hlsr.
  destruct (opt_with_lsr_bindings v); split.
  - by split.
  - by intros lsr [= <-].
  - split; [by intros [? ?]|done].
  - done.
Qed.

(** The flags of [openmp_flags], by the compiler of the settings. *)
Lemma openmp_flags_by_compiler self :
  let compiler := settings self !! "compiler" in
  (compiler = Some "Visual Studio" ∨ compiler = Some "msvc" →
     openmp_flags self = ["-openmp"]) ∧
  (compiler = Some "gcc" ∨ compiler = Some "clang" →
     openmp_flags self = ["-fopenmp"]) ∧
  (compiler = Some "apple-clang" →
     openmp_flags self = ["-Xpreprocessor"; "-fopenmp"]) ∧
  (compiler ≠ Some "Visual Studio" → compiler ≠ Some "msvc" →
   compiler ≠ Some "gcc" → compiler ≠ Some "clang" →
   compiler ≠ Some "apple-clang" →
     openmp_flags self = []).
Proof.
  intros compiler. unfold openmp_flags, setting_in, setting_is. cbn [existsb].
  fold compiler. repeat case_bool_decide; cbn; repeat split; intros;
    try done; try congruence; intuition congruence.
Qed.

(** C4: with [shared] false and [with_openmp] true, both lists of link
    flags of "core" are those of the compiler family: "-openmp" for the
    Microsoft compilers, "-fopenmp" for gcc and clang, "-Xpreprocessor"
    "-fopenmp" for apple-clang, none for any other compiler, which is not an
    error.  With [shared] true or [with_openmp] false no flag is set. *)
Theorem core_openmp_link_flags ver s v src pkg :
  ∃ tc self' core,
    run_recipe (new_conanfile ver s v src pkg) = Ok (tc, self') ∧
    cpp_info self' !! "core" = Some core ∧
    let compiler := s !! "compiler" in
    let link_flags l := exelinkflags core = l ∧ sharedlinkflags core = l in
    (opt_shared v = false ∧ opt_with_openmp v = true →
       (compiler = Some "Visual Studio" ∨ compiler = Some "msvc" →
          link_flags ["-openmp"]) ∧
       (compiler = Some "gcc" ∨ compiler = Some "clang" →
          link_flags ["-fopenmp"]) ∧
       (compiler = Some "apple-clang" →
          link_flags ["-Xpreprocessor"; "-fopenmp"]) ∧
       (compiler ≠ Some "Visual Studio" → compiler ≠ Some "msvc" →
        compiler ≠ Some "gcc" → compiler ≠ Some "clang" →
        compiler ≠ Some "apple-clang" →
          link_flags [])) ∧
    (opt_shared v = true ∨ opt_with_openmp v = false → link_flags []).
Proof.
  destruct (run_recipe_new ver s v src pkg) as (tc & self' & Hrun & Hcore & _).
  eexists tc, self', _. split; [done|]. split; [exact Hcore|].
  cbn [exelinkflags sharedlinkflags].
  destruct (openmp_flags_by_compiler (new_conanfile ver s v src pkg))
    as (Hms & Hgnu & Happle & Hother).
  cbn [settings new_conanfile] in Hms, Hgnu, Happle, Hother.
  split.
  - intros [-> ->]. cbn [negb andb]. repeat split; intros.
    all: first [by apply Hms | by apply Hgnu | by apply Happle | by apply Hother].
  - intros [-> | ->]; [done|]. by rewrite andb_false_r.
Qed.

(** C8: "SOXR_DLL" is among the defines of "core" exactly when the system
    is Windows and [shared] is true; the same holds of the defines of "lsr"
    whenever that component is emitted. *)
Theorem SOXR_DLL_iff_windows_shared ver s v src pkg :
  ∃ tc self' core,
    run_recipe (new_conanfile ver s v src pkg) = Ok (tc, self') ∧
    cpp_info self' !! "core" = Some core ∧
    ("SOXR_DLL" ∈ defines core ↔
       s !! "os" = Some "Windows" ∧ opt_shared v = true) ∧
    (∀ lsr, cpp_info self' !! "lsr" = Some lsr →
       ("SOXR_DLL" ∈ defines lsr ↔
          s !! "os" = Some "Windows" ∧ opt_shared v = true)).
Proof.
  destruct (run_recipe_new ver s v src pkg)
    as (tc & self' & Hrun & Hcore & Hlsr).
  eexists tc, self', _. split; [done|]. split; [exact Hcore|].
  assert (∀ l : list string,
    l = (if setting_is "os" "Windows" (new_conanfile ver s v src pkg)
            && opt_shared v then ["SOXR_DLL"] else []) →
    "SOXR_DLL" ∈ l ↔ s !! "os" = Some "Windows" ∧ opt_shared v = true) as Hdef.
  { intros l ->. unfold setting_is. cbn [settings new_conanfile].
    case_bool_decide as Hos; destruct (opt_shared v); cbn.
    - split; [done|]. intros _. apply list_elem_of_singleton. done.
    - split; [by intros ?%elem_of_nil|by intros [_ ?]].
    - split; [by intros ?%elem_of_nil|by intros [? _]].
    - split; [by intros ?%elem_of_nil|by intros [? _]]. }
  split.
  - by apply Hdef.
  - intros lsr. rewrite Hlsr. destruct (opt_with_lsr_bindings v); [|done].
    intros [= <-]. by apply Hdef.
Qed.

(** C9: the system libraries of "core" are exactly "m" when the system is
    Linux or FreeBSD, and none on every other system. *)
Theorem core_system_libs ver s v src pkg :
  ∃ tc self' core,
    run_recipe (new_conanfile ver s v src pkg) = Ok (tc, self') ∧
    cpp_info self' !! "core" = Some core ∧
    (s !! "os" = Some "Linux" ∨ s !! "os" = Some "FreeBSD" →
       system_libs core = ["m"]) ∧
    (s !! "os" ≠ Some "Linux" → s !! "os" ≠ Some "FreeBSD" →
       system_libs core = []).
Proof.
  destruct (run_recipe_new ver s v src pkg) as (tc & self' & Hrun & Hcore & _).
  eexists tc, self', _. split; [done|]. split; [exact Hcore|].
  cbn [system_libs]. unfold setting_in, setting_is.
  cbn [existsb settings new_conanfile].
  repeat case_bool_decide; cbn; split; intros; try done; intuition congruence.
Qed.

(** C10: on every input the two lists of link flags of "core" are equal. *)
Theorem core_exelinkflags_eq_sharedlinkflags ver s v src pkg :
  ∃ tc self' core,
    run_recipe (new_conanfile ver s v src pkg) = Ok (tc, self') ∧
    cpp_info self' !! "core" = Some core ∧
    exelinkflags core = sharedlinkflags core.
Proof.
  destruct (run_recipe_new ver s v src pkg) as (tc & self' & Hrun & Hcore & _).
  eexists tc, self', _. split; [done|]. split; [exact Hcore|]. done.
Qed.

End Components.

(** ** The toolchain *)

(** What [generate] stores in BUILD_SHARED_RUNTIME, by the flag of the
    runtime: true for the flag "MD", false for every other flag, nothing
    when the compiler is not a Microsoft one. *)
Lemma generate_BUILD_SHARED_RUNTIME_by_flag `{!ConanTools} self tc :
  generate self = Ok tc →
  (is_msvc self = true → msvc_runtime_flag self = "MD" →
     variables tc !! "BUILD_SHARED_RUNTIME" = Some (VBool true)) ∧
  (is_msvc self = true → msvc_runtime_flag self ≠ "MD" →
     variables tc !! "BUILD_SHARED_RUNTIME" = Some (VBool false)) ∧
  (is_msvc self = false →
     variables tc !! "BUILD_SHARED_RUNTIME" = None).
Proof.
  intros Hg. rewrite (generate_variables_msvc _ _ Hg).
  repeat split.
  - intros -> Hmd. by rewrite (bool_decide_eq_true_2 _ Hmd).
  - intros -> Hmd. by rewrite (bool_decide_eq_false_2 _ Hmd).
  - by intros ->.
Qed.

(** A debug build with the Microsoft compiler and the dynamic runtime. *)
Definition windows_msvc_debug : gmap string string :=
  {[ "os" := "Windows"; "arch" := "x86_64"; "compiler" := "msvc";
     "compiler.runtime" := "dynamic"; "compiler.runtime_type" := "Debug";
     "build_type" := "Debug" ]}.

Definition windows_debug_recipe : ConanFile :=
  new_conanfile "0.1.3" windows_msvc_debug default_options
                "/build/src" "/build/pkg".

(** With the helpers of Conan, the Microsoft compiler, the dynamic runtime
    and a debug runtime type give the flag "MDd", which is not "MD": on
    every such recipe object [generate] stores false. *)
Lemma generate_dynamic_debug_runtime self tc :
  @generate Conan.tools self = Ok tc →
  settings self !! "compiler" = Some "msvc" →
  settings self !! "compiler.runtime" = Some "dynamic" →
  settings self !! "compiler.runtime_type" = Some "Debug" →
  variables tc !! "BUILD_SHARED_RUNTIME" = Some (VBool false).
Proof.
  intros Hg Hc Hr Ht. rewrite (generate_variables_msvc _ _ Hg).
  cbn [is_msvc msvc_runtime_flag Conan.tools].
  unfold Conan.is_msvc, Conan.msvc_runtime_flag, setting_in, setting_is.
  rewrite Hc, Hr, Ht. vm_compute. reflexivity.
Qed.

(** C5 fails on the code: the runtime linkage is the dynamic one, yet
    BUILD_SHARED_RUNTIME is false.  On a debug build with the Microsoft
    compiler and "compiler.runtime" set to "dynamic", the flag of the
    runtime is "MDd"; [generate] compares it with "MD" only and stores
    false.  On the same settings with a release runtime type it stores
    true. *)
Theorem generate_BUILD_SHARED_RUNTIME_dynamic_debug :
  settings windows_debug_recipe !! "compiler" = Some "msvc" ∧
  settings windows_debug_recipe !! "compiler.runtime" = Some "dynamic" ∧
  settings windows_debug_recipe !! "compiler.runtime_type" = Some "Debug" ∧
  is_msvc windows_debug_recipe = true ∧
  msvc_runtime_flag windows_debug_recipe = "MDd" ∧
  match run_recipe windows_debug_recipe with
  | Ok (tc, _) => variables tc !! "BUILD_SHARED_RUNTIME" = Some (VBool false)
  | Raise _ => False
  end ∧
  settings windows_recipe !! "compiler.runtime" = Some "dynamic" ∧
  match run_recipe windows_recipe with
  | Ok (tc, _) => variables tc !! "BUILD_SHARED_RUNTIME" = Some (VBool true)
  | Raise _ => False
  end.
Proof. repeat split; vm_compute; reflexivity. Qed.

(** C7: the map of cache variables that [generate] fills holds
    CMAKE_POLICY_DEFAULT_CMP0115, set to "OLD", exactly when the version
    compares below "3.21"; with the ordering of Conan, version "3.20" has
    the variable and version "3.22" has it not. *)
Theorem generate_CMP0115_iff_version_lt :
  (∀ (tools : ConanTools) self tc,
     generate self = Ok tc →
     (cache_variables tc !! "CMAKE_POLICY_DEFAULT_CMP0115" = Some (VStr "OLD")
        ↔ Version_lt (version self) "3.21" = true) ∧
     (cache_variables tc !! "CMAKE_POLICY_DEFAULT_CMP0115" = None
        ↔ Version_lt (version self) "3.21" = false) ∧
     variables tc !! "CMAKE_POLICY_DEFAULT_CMP0115" = None) ∧
  (∀ self tc,
     @generate Conan.tools self = Ok tc →
     (version self = "3.20" →
        cache_variables tc !! "CMAKE_POLICY_DEFAULT_CMP0115" = Some (VStr "OLD")) ∧
     (version self = "3.22" →
        cache_variables tc !! "CMAKE_POLICY_DEFAULT_CMP0115" = None)).
Proof.
  assert (∀ (tools : ConanTools) self tc,
    generate self = Ok tc →
    cache_variables tc !! "CMAKE_POLICY_DEFAULT_CMP0115" =
      if Version_lt (version self) "3.21" then Some (VStr "OLD") else None)
    as Hlookup.
  { intros tools self tc Hg. rewrite (generate_cache_variables _ _ Hg).
    by destruct (Version_lt _ _). }
  split.
  - intros tools self tc Hg. rewrite (Hlookup _ _ _ Hg).
    split; [|split].
    + by destruct (Version_lt _ _).
    + by destruct (Version_lt _ _).
    + by apply generate_variables_not_cache with self.
  - intros self tc Hg. rewrite (Hlookup _ _ _ Hg).
    split; intros ->; reflexivity.
Qed.

Lemma generate_CMP0115_iff_version_lt_witness :
  ∃ tc,
    generate linux_recipe = Ok tc ∧
    Version_lt (version linux_recipe) "3.21" = true ∧
    cache_variables tc !! "CMAKE_POLICY_DEFAULT_CMP0115" = Some (VStr "OLD").
Proof.
  eexists. split; [reflexivity|]. split; [reflexivity|].
  exact (proj2 (proj1 (proj1 generate_CMP0115_iff_version_lt
                         Conan.tools linux_recipe _ eq_refl)) eq_refl).
Defined.

(** * Further properties of the recipe *)

(** ** [generate]: the variables *)

(** Inclusion between two sets of names written out in full. *)
Ltac members :=
  apply elem_of_subseteq; intros ?;
  rewrite ?elem_of_union, ?elem_of_singleton, ?elem_of_empty; tauto.

Section GenerateVariables.
Context `{!ConanTools}.

(** The map of variables that [generate] builds, one assignment after the
    other. *)
Lemma generate_variables self tc :
  generate self = Ok tc →
  ∃ omp lsr,
    options self !! "with_openmp" = Some omp ∧
    options self !! "with_lsr_bindings" = Some lsr ∧
    variables tc =
      <["WITH_LSR_BINDINGS" := VBool lsr]>
      (<["WITH_OPENMP" := VBool omp]>
      (<["BUILD_TESTS" := VBool false]>
      ((if setting_is "os" "Macos" self && setting_is "arch" "armv8" self
        then λ m, <["WITH_CR64S" := VBool false]>
                    (<["WITH_CR32S" := VBool false]> m)
        else λ m, m)
       (if is_msvc self
        then {["BUILD_SHARED_RUNTIME" :=
                 VBool (bool_decide (msvc_runtime_flag self = "MD"))]}
        else ∅)))).
Proof.
  unfold generate, get_option.
  destruct (options self !! "with_openmp") as [omp|]; [|done].
  destruct (options self !! "with_lsr_bindings") as [lsr|]; [|done]. cbn.
  intros [= <-]. exists omp, lsr. repeat split.
  destruct (Version_lt _ _), (is_msvc self),
    (setting_is "os" "Macos" self && setting_is "arch" "armv8" self); done.
Qed.

(** The two SIMD engines are switched off exactly on Macos with armv8;
    on any other system or architecture [generate] leaves both variables
    out. *)
Theorem generate_simd_engines self tc :
  generate self = Ok tc →
  (settings self !! "os" = Some "Macos" →
   settings self !! "arch" = Some "armv8" →
     variables tc !! "WITH_CR32S" = Some (VBool false) ∧
     variables tc !! "WITH_CR64S" = Some (VBool false)) ∧
  (settings self !! "os" ≠ Some "Macos" ∨
   settings self !! "arch" ≠ Some "armv8" →
     variables tc !! "WITH_CR32S" = None ∧
     variables tc !! "WITH_CR64S" = None).
Proof.
  intros (omp & lsr & _ & _ & ->)%generate_variables.
  unfold setting_is. split.
  - intros Hos Harch.
    rewrite (bool_decide_eq_true_2 _ Hos), (bool_decide_eq_true_2 _ Harch).
    cbn. by simplify_map_eq.
  - intros Hnot.
    assert (bool_decide (settings self !! "os" = Some "Macos")
            && bool_decide (settings self !! "arch" = Some "armv8") = false)
      as ->.
    { apply andb_false_iff.
      destruct Hnot as [Hn|Hn]; [left|right]; by apply bool_decide_eq_false_2. }
    destruct (is_msvc self); by simplify_map_eq.
Qed.

(** [generate] sets no variable but the six it names, and no cache variable
    but the two policies; the three toggles and the first policy are always
    set. *)
Theorem generate_sets_only_its_variables self tc :
  generate self = Ok tc →
  dom (variables tc) ⊆
    ({["BUILD_SHARED_RUNTIME"; "WITH_CR32S"; "WITH_CR64S"; "BUILD_TESTS";
       "WITH_OPENMP"; "WITH_LSR_BINDINGS"]} : gset string) ∧
  ({["BUILD_TESTS"; "WITH_OPENMP"; "WITH_LSR_BINDINGS"]} : gset string)
    ⊆ dom (variables tc) ∧
  dom (cache_variables tc) ⊆
    ({["CMAKE_POLICY_DEFAULT_CMP0077"; "CMAKE_POLICY_DEFAULT_CMP0115"]}
       : gset string) ∧
  cache_variables tc !! "CMAKE_POLICY_DEFAULT_CMP0077" = Some (VStr "NEW").
Proof.
  intros Hg. pose proof (generate_cache_variables _ _ Hg) as ->.
  destruct (generate_variables _ _ Hg) as (omp & lsr & _ & _ & ->).
  split; [|split; [|split]].
  - destruct (setting_is "os" "Macos" self && setting_is "arch" "armv8" self),
      (is_msvc self);
      rewrite ?dom_insert_L, ?dom_singleton_L, ?dom_empty_L; members.
  - rewrite !dom_insert_L. members.
  - destruct (Version_lt _ _);
      rewrite ?dom_insert_L, ?dom_singleton_L; members.
  - destruct (Version_lt _ _); by simplify_map_eq.
Qed.

End GenerateVariables.

Definition macos_armv8 : gmap string string :=
  {[ "os" := "Macos"; "arch" := "armv8"; "compiler" := "apple-clang";
     "compiler.libcxx" := "libc++"; "build_type" := "Release" ]}.

Definition macos_recipe : ConanFile :=
  new_conanfile "0.1.3" macos_armv8 default_options "/build/src" "/build/pkg".

Lemma generate_simd_engines_witness :
  ∃ tc,
    generate macos_recipe = Ok tc ∧
    variables tc !! "WITH_CR32S" = Some (VBool false) ∧
    variables tc !! "WITH_CR64S" = Some (VBool false).
Proof.
  eexists. split; [vm_compute; reflexivity|].
  refine (proj1 (generate_simd_engines macos_recipe _ _) _ _);
    vm_compute; reflexivity.
Defined.

Lemma generate_sets_only_its_variables_witness :
  ∃ tc,
    generate linux_recipe = Ok tc ∧
    dom (variables tc) ⊆
      ({["BUILD_SHARED_RUNTIME"; "WITH_CR32S"; "WITH_CR64S"; "BUILD_TESTS";
         "WITH_OPENMP"; "WITH_LSR_BINDINGS"]} : gset string).
Proof.
  eexists. split; [vm_compute; reflexivity|].
  refine (proj1 (generate_sets_only_its_variables linux_recipe _ _));
    vm_compute; reflexivity.
Defined.

(** ** A run, step by step *)

Lemma run_recipe_inv `{!ConanTools} self tc self' :
  run_recipe self = Ok (tc, self') →
  ∃ self1,
    normalize self = Ok self1 ∧
    generate self1 = Ok tc ∧
    package_info self1 = Ok self'.
Proof.
  unfold run_recipe.
  destruct (normalize self) as [self1|]; [|done]. rewrite bind_Ok.
  destruct (generate self1) as [tc1|] eqn:Hg; [|done]. rewrite bind_Ok.
  destruct (package_info self1) as [self2|] eqn:Hp; [|done]. rewrite bind_Ok.
  intros [= <- <-]. by exists self1.
Qed.

(** The toolchain of a run gets the values of [with_openmp] and
    [with_lsr_bindings] that the user gave, unchanged by normalization, and
    never builds the tests. *)
Theorem toolchain_propagates_options `{!ConanTools} ver s v src pkg :
  ∃ tc self',
    run_recipe (new_conanfile ver s v src pkg) = Ok (tc, self') ∧
    variables tc !! "WITH_OPENMP" = Some (VBool (opt_with_openmp v)) ∧
    variables tc !! "WITH_LSR_BINDINGS" = Some (VBool (opt_with_lsr_bindings v)) ∧
    variables tc !! "BUILD_TESTS" = Some (VBool false).
Proof.
  destruct (run_recipe_new ver s v src pkg) as (tc & self' & Hrun & _).
  exists tc, self'. split; [done|].
  destruct (run_recipe_inv _ _ _ Hrun) as (self1 & Hn & Hg & _).
  destruct (normalize_new ver s v src pkg)
    as (self1' & Hn' & _ & _ & _ & Homp & Hlsr & _).
  rewrite Hn in Hn'. injection Hn' as <-.
  destruct (generate_variables _ _ Hg) as (omp & lsr & Ho & Hl & ->).
  rewrite Homp in Ho. rewrite Hlsr in Hl.
  injection Ho as <-. injection Hl as <-.
  by simplify_map_eq.
Qed.

(** ** Normalization: what stays *)

(** After normalization [fPIC] is a defined option exactly when the system
    is not Windows and [shared] is false, and it then has the value the
    user gave. *)
Theorem fPIC_kept_iff ver s v src pkg :
  ∃ self',
    normalize (new_conanfile ver s v src pkg) = Ok self' ∧
    (is_Some (options self' !! "fPIC") ↔
       s !! "os" ≠ Some "Windows" ∧ opt_shared v = false) ∧
    (∀ b, options self' !! "fPIC" = Some b → b = opt_fPIC v).
Proof.
  destruct (normalize_new ver s v src pkg)
    as (self' & Hn & _ & _ & _ & _ & _ & Hpic & _).
  exists self'. split; [done|]. rewrite Hpic.
  case_bool_decide as Hos; destruct (opt_shared v); cbn; split.
  all: try (split; [by intros [? ?]|by intros [? ?]]).
  all: try (by intros b [= <-]); done.
Qed.

(** Normalization touches nothing but [fPIC] and the two settings
    "compiler.libcxx" and "compiler.cppstd", which are no longer defined:
    every other option and setting, the version, the folders and the
    components are as before. *)
Theorem normalize_frame ver s v src pkg :
  ∃ self',
    normalize (new_conanfile ver s v src pkg) = Ok self' ∧
    settings self' !! "compiler.libcxx" = None ∧
    settings self' !! "compiler.cppstd" = None ∧
    (∀ name, name ≠ "compiler.libcxx" → name ≠ "compiler.cppstd" →
       settings self' !! name = s !! name) ∧
    (∀ name, name ≠ "fPIC" →
       options self' !! name = declared_options v !! name) ∧
    version self' = ver ∧
    source_folder self' = src ∧
    package_folder self' = pkg ∧
    cpp_info self' = ∅.
Proof.
  eexists. split.
  - apply (normalize_defined _ (opt_shared v) (opt_fPIC v)); done.
  - cbn [settings with_settings]. split; [|split; [|split; [|split]]].
    + rewrite lookup_delete_ne by done. apply lookup_delete_eq.
    + apply lookup_delete_eq.
    + intros name H1 H2. by rewrite !lookup_delete_ne.
    + intros name Hne.
      destruct (setting_is "os" "Windows" _ || opt_shared v); cbn; [|done].
      by rewrite lookup_delete_ne.
    + destruct (setting_is "os" "Windows" _ || opt_shared v); done.
Qed.

Lemma delete_two_again {A} (m : gmap string A) i j :
  delete i (delete j (delete i (delete j m))) = delete i (delete j m).
Proof.
  apply map_eq. intros k. rewrite !lookup_delete. by repeat case_decide.
Qed.

(** [configure] can be run again: a second run returns the recipe object
    the first one left. *)
Theorem configure_idempotent self self' :
  configure self = Ok self' → configure self' = Ok self'.
Proof.
  unfold configure, get_option.
  destruct (options self !! "shared") as [sh|] eqn:Hsh; [|done]. cbn.
  intros [= <-].
  destruct sh; cbn; rewrite ?lookup_delete_ne by done; rewrite Hsh; cbn;
    unfold settings_rm_safe, options_rm_safe, with_settings, with_options; cbn;
    by rewrite delete_two_again, ?delete_delete_eq.
Qed.

Lemma configure_idempotent_witness :
  ∃ self',
    configure linux_recipe = Ok self' ∧ configure self' = Ok self'.
Proof.
  eexists. split; [vm_compute; reflexivity|].
  refine (configure_idempotent linux_recipe _ _); vm_compute; reflexivity.
Defined.

(** ** [package_info]: what it leaves alone *)

Lemma bind_Raise {A B} (e : Exception) (k : A → Result B) :
  Raise e ≫= k = Raise e.
Proof. reflexivity. Qed.

Lemma package_info_keeps self self' :
  package_info self = Ok self' →
  version self' = version self ∧
  settings self' = settings self ∧
  options self' = options self ∧
  source_folder self' = source_folder self ∧
  package_folder self' = package_folder self ∧
  (∀ name, name ≠ "core" → name ≠ "lsr" →
     cpp_info self' !! name = cpp_info self !! name).
Proof.
  unfold package_info. through_components.
  destruct (setting_in "os" ["FreeBSD"; "Linux"] self); through_components.
  all: destruct (windows_and_shared self) as [[|]|] eqn:Hdll;
    rewrite ?bind_Raise, ?bind_Ok; try done; through_components.
  all: destruct (static_and_openmp self) as [[|]|];
    rewrite ?bind_Raise, ?bind_Ok; try done; through_components.
  all: destruct (get_option "with_lsr_bindings" self) as [[|]|];
    rewrite ?bind_Raise, ?bind_Ok; try done; through_components.
  all: rewrite ?Hdll, ?bind_Ok.
  all: intros [= <-]; repeat split; try reflexivity.
  all: intros name Hcore Hlsr.
  all: by rewrite ?lookup_on_component_ne by done.
Qed.

(** [package_info] changes nothing of the recipe object but the two
    components "core" and "lsr": the version, the settings, the options,
    the folders and every other component are as before. *)
Theorem package_info_frame self self' :
  package_info self = Ok self' →
  version self' = version self ∧
  settings self' = settings self ∧
  options self' = options self ∧
  source_folder self' = source_folder self ∧
  package_folder self' = package_folder self ∧
  (∀ name, name ≠ "core" → name ≠ "lsr" →
     cpp_info self' !! name = cpp_info self !! name).
Proof. apply package_info_keeps. Qed.

Lemma package_info_frame_witness :
  raises (package_info linux_recipe) = false ∧
  match package_info linux_recipe with
  | Ok self' => options self' = options linux_recipe
  | Raise _ => False
  end.
Proof.
  assert (raises (package_info linux_recipe) = false) as Hr by reflexivity.
  split; [exact Hr|].
  destruct (package_info linux_recipe) as [self'|] eqn:Hp; [|discriminate Hr].
  exact (proj1 (proj2 (proj2 (package_info_frame linux_recipe self' Hp)))).
Defined.

(** ** The components of a run, as a whole *)

Section ComponentGraph.
Context `{!ConanTools}.

Lemma run_recipe_other_components ver s v src pkg tc self' :
  run_recipe (new_conanfile ver s v src pkg) = Ok (tc, self') →
  ∀ name, name ≠ "core" → name ≠ "lsr" → cpp_info self' !! name = None.
Proof.
  intros (self1 & Hn & _ & Hp)%run_recipe_inv name Hcore Hlsr.
  destruct (normalize_new ver s v src pkg)
    as (self1' & Hn' & _ & _ & _ & _ & _ & _ & Hcpp).
  rewrite Hn in Hn'. injection Hn' as <-.
  destruct (package_info_keeps _ _ Hp) as (_ & _ & _ & _ & _ & Hframe).
  by rewrite (Hframe name Hcore Hlsr), Hcpp.
Qed.

(** The components of a run are "core" and at most "lsr", nothing else;
    whatever a component requires is itself among the components, and no
    component requires itself. *)
Theorem components_closed ver s v src pkg :
  ∃ tc self',
    run_recipe (new_conanfile ver s v src pkg) = Ok (tc, self') ∧
    (∀ name, is_Some (cpp_info self' !! name) → name = "core" ∨ name = "lsr") ∧
    (∀ name c r,
       cpp_info self' !! name = Some c → r ∈ requires c →
       is_Some (cpp_info self' !! r) ∧ r ≠ name).
Proof.
  destruct (run_recipe_new ver s v src pkg)
    as (tc & self' & Hrun & Hcore & Hlsr).
  pose proof (run_recipe_other_components _ _ _ _ _ _ _ Hrun) as Hother.
  exists tc, self'. split; [done|]. split.
  - intros name Hsome.
    destruct (decide (name = "core")) as [|Hc]; [by left|].
    destruct (decide (name = "lsr")) as [|Hl]; [by right|].
    rewrite (Hother name Hc Hl) in Hsome. by destruct Hsome.
  - intros name c r Hname Hr.
    destruct (decide (name = "core")) as [->|Hc].
    { rewrite Hcore in Hname. injection Hname as <-. cbn in Hr.
      by apply elem_of_nil in Hr. }
    destruct (decide (name = "lsr")) as [->|Hl].
    { rewrite Hlsr in Hname. destruct (opt_with_lsr_bindings v); [|done].
      injection Hname as <-. cbn in Hr.
      apply list_elem_of_singleton in Hr as ->. by rewrite Hcore. }
    by rewrite (Hother name Hc Hl) in Hname.
Qed.

(** Whatever the options and settings, "core" exposes exactly the library
    "soxr" under the pkg-config name "soxr" and requires nothing; "lsr",
    when emitted, has the pkg-config name "soxr-lsr", no system library and
    no link flag. *)
Theorem component_names ver s v src pkg :
  ∃ tc self' core,
    run_recipe (new_conanfile ver s v src pkg) = Ok (tc, self') ∧
    cpp_info self' !! "core" = Some core ∧
    libs core = ["soxr"] ∧
    properties core !! "pkg_config_name" = Some "soxr" ∧
    requires core = [] ∧
    (∀ lsr, cpp_info self' !! "lsr" = Some lsr →
       properties lsr !! "pkg_config_name" = Some "soxr-lsr" ∧
       system_libs lsr = [] ∧
       exelinkflags lsr = [] ∧
       sharedlinkflags lsr = []).
Proof.
  destruct (run_recipe_new ver s v src pkg)
    as (tc & self' & Hrun & Hcore & Hlsr).
  eexists tc, self', _. split; [done|]. split; [exact Hcore|].
  do 3 (split; [done|]).
  intros lsr. rewrite Hlsr. destruct (opt_with_lsr_bindings v); [|done].
  by intros [= <-].
Qed.

End ComponentGraph.

(** The components of a run depend on the system, the compiler and the
    options [shared], [with_openmp] and [with_lsr_bindings] only: not on the
    version, the folders, [fPIC], any other setting, nor on the helpers of
    Conan. *)
Theorem components_depend_only_on
    (tools1 tools2 : ConanTools) ver1 ver2 s1 s2 v1 v2 src1 src2 pkg1 pkg2
    tc1 tc2 self1 self2 :
  s1 !! "os" = s2 !! "os" →
  s1 !! "compiler" = s2 !! "compiler" →
  opt_shared v1 = opt_shared v2 →
  opt_with_openmp v1 = opt_with_openmp v2 →
  opt_with_lsr_bindings v1 = opt_with_lsr_bindings v2 →
  @run_recipe tools1 (new_conanfile ver1 s1 v1 src1 pkg1) = Ok (tc1, self1) →
  @run_recipe tools2 (new_conanfile ver2 s2 v2 src2 pkg2) = Ok (tc2, self2) →
  cpp_info self1 = cpp_info self2.
Proof.
  intros Hos Hcomp Hsh Homp Hlsr Hrun1 Hrun2.
  destruct (@run_recipe_new tools1 ver1 s1 v1 src1 pkg1)
    as (tc1' & self1' & Hrun1' & Hcore1 & Hlsr1).
  destruct (@run_recipe_new tools2 ver2 s2 v2 src2 pkg2)
    as (tc2' & self2' & Hrun2' & Hcore2 & Hlsr2).
  rewrite Hrun1 in Hrun1'. injection Hrun1' as <- <-.
  rewrite Hrun2 in Hrun2'. injection Hrun2' as <- <-.
  set (r1 := new_conanfile ver1 s1 v1 src1 pkg1) in *.
  set (r2 := new_conanfile ver2 s2 v2 src2 pkg2) in *.
  assert (Hos' : settings r1 !! "os" = settings r2 !! "os") by done.
  assert (Hcomp' : settings r1 !! "compiler" = settings r2 !! "compiler") by done.
  apply map_eq. intros name.
  destruct (decide (name = "core")) as [->|Hc].
  { rewrite Hcore1, Hcore2, Hsh, Homp.
    by rewrite (setting_in_same_settings _ _ _ _ Hos'),
      (setting_is_same_settings _ _ _ _ Hos'),
      (openmp_flags_same_settings _ _ Hcomp'). }
  destruct (decide (name = "lsr")) as [->|Hl].
  { rewrite Hlsr1, Hlsr2, Hsh, Hlsr.
    by rewrite (setting_is_same_settings _ _ _ _ Hos'). }
  rewrite (@run_recipe_other_components tools1 _ _ _ _ _ _ _ Hrun1 name Hc Hl).
  by rewrite (@run_recipe_other_components tools2 _ _ _ _ _ _ _ Hrun2 name Hc Hl).
Qed.

(** A second set of option values: [fPIC] off, the rest as by default. *)
Definition options_without_fPIC : OptionValues :=
  mkOptionValues false false false true.

Lemma components_depend_only_on_witness :
  match run_recipe linux_recipe,
        run_recipe (new_conanfile "0.1.2" (<["arch" := "armv8"]> linux_gcc)
                      options_without_fPIC "/tmp/src" "/tmp/pkg")
  with
  | Ok (_, self1), Ok (_, self2) => cpp_info self1 = cpp_info self2
  | _, _ => False
  end.
Proof.
  destruct (run_recipe linux_recipe) as [[tc1 self1]|] eqn:Hrun1;
    [|vm_compute in Hrun1; discriminate Hrun1].
  destruct (run_recipe (new_conanfile "0.1.2" (<["arch" := "armv8"]> linux_gcc)
                          options_without_fPIC "/tmp/src" "/tmp/pkg"))
    as [[tc2 self2]|] eqn:Hrun2;
    [|vm_compute in Hrun2; discriminate Hrun2].
  refine (components_depend_only_on Conan.tools Conan.tools
            "0.1.3" "0.1.2" linux_gcc (<["arch" := "armv8"]> linux_gcc)
            default_options options_without_fPIC
            "/build/src" "/tmp/src" "/build/pkg" "/tmp/pkg" tc1 tc2 self1 self2
            _ _ _ _ _ Hrun1 Hrun2);
    vm_compute; reflexivity.
Defined.

(** ** Texts: appending, [substring], first occurrences *)

Lemma append_nil_r s : s ++ "" = s.
Proof. induction s as [|c s IH]; [done|]. by rewrite append_cons, IH. Qed.

Lemma append_assoc a b c : (a ++ b) ++ c = a ++ (b ++ c).
Proof. induction a as [|x a IH]; [done|]. by rewrite !append_cons, IH. Qed.

Lemma length_append s t :
  String.length (s ++ t) = (String.length s + String.length t)%nat.
Proof.
  induction s as [|c s IH]; [done|]. rewrite append_cons. cbn. by rewrite IH.
Qed.

Lemma substring_none n s : substring n 0 s = "".
Proof.
  revert n. induction s as [|c s IH]; intros [|n]; cbn; done.
Qed.

(** A [substring] that starts after [a] is a [substring] of what follows. *)
Lemma substring_skip a b n m :
  substring (String.length a + n) m (a ++ b) = substring n m b.
Proof. induction a as [|c a IH]; [done|]. rewrite append_cons. cbn. apply IH. Qed.

(** A [substring] from the start that is longer than [a] takes all of [a]. *)
Lemma substring_take a b m :
  substring 0 (String.length a + m) (a ++ b) = a ++ substring 0 m b.
Proof.
  induction a as [|c a IH]; [done|]. rewrite !append_cons. cbn. by rewrite IH.
Qed.

(** A slice between two bounds that are not negative. *)
Lemma slice_nat s (a b : nat) :
  slice s (Z.of_nat a) (Z.of_nat b) =
  substring (a `min` String.length s)
            (b `min` String.length s - a `min` String.length s) s.
Proof.
  unfold slice, slice_index.
  destruct (Z.ltb_spec (Z.of_nat a) 0); [lia|].
  destruct (Z.ltb_spec (Z.of_nat b) 0); [lia|].
  f_equal; lia.
Qed.

(** [p] starts [a ++ b]: either it ends inside [a], or it runs through [a]
    and goes on at the start of [b]. *)
Lemma prefix_append_split p a b :
  String.prefix p (a ++ b) = true →
  (∃ rest, a = p ++ rest) ∨ (∃ p', p = a ++ p' ∧ String.prefix p' b = true).
Proof.
  revert p. induction a as [|c a IH]; intros p Hp.
  - right. by exists p.
  - destruct p as [|x p].
    + left. by exists (String c a).
    + rewrite append_cons in Hp. cbn in Hp.
      destruct (ascii_dec x c) as [->|]; [|done].
      destruct (IH p Hp) as [[rest ->]|(p' & -> & Hp')].
      * left. by exists rest.
      * right. by exists p'.
Qed.

Fixpoint char_in (c : ascii) (s : string) : bool :=
  match s with
  | EmptyString => false
  | String x s' => Ascii.eqb c x || char_in c s'
  end.

Lemma char_in_append c a b : char_in c (a ++ String c b) = true.
Proof.
  induction a as [|x a IH].
  - change (char_in c (String c b) = true). cbn. by rewrite Ascii.eqb_refl.
  - rewrite append_cons. cbn. by rewrite IH, orb_true_r.
Qed.

(** The first character of [sub] is not repeated further on in [sub]. *)
Definition head_unique (sub : string) : bool :=
  match sub with
  | EmptyString => true
  | String c t => negb (char_in c t)
  end.

(** When the first character of [sub] is not repeated in it, an occurrence
    of [sub] cannot start before another one and run into it. *)
Lemma no_overlapping_prefix sub c before rest :
  head_unique sub = true →
  ¬ occurs_in sub (String c before) →
  String.prefix sub (String c before ++ sub ++ rest) = false.
Proof.
  intros Hu Hno. destruct (String.prefix sub _) eqn:Hp; [|done].
  destruct Hno.
  apply prefix_append_split in Hp as [[x Hx]|(p' & Hsub & Hp')].
  - exists "", x. by rewrite Hx.
  - destruct p' as [|y p'].
    + exists "", "". rewrite append_nil_r in Hsub. by rewrite <- Hsub, append_nil_r.
    + destruct sub as [|h t]; [done|].
      rewrite append_cons in Hp'. cbn in Hp'.
      destruct (ascii_dec y h) as [->|]; [|done].
      rewrite append_cons in Hsub. injection Hsub as -> ->.
      cbn in Hu. by rewrite char_in_append in Hu.
Qed.

(** [find] answers the place of an occurrence that no other precedes. *)
Lemma find_from_first sub before rest i :
  head_unique sub = true →
  ¬ occurs_in sub before →
  find_from sub (before ++ sub ++ rest) i = (i + Z.of_nat (String.length before))%Z.
Proof.
  intros Hu. revert i. induction before as [|c before IH]; intros i Hno.
  - change ("" ++ sub ++ rest) with (sub ++ rest).
    assert (String.prefix sub (sub ++ rest) = true) as Hp
      by (apply prefix_true_iff; by exists rest).
    destruct (sub ++ rest); cbn [find_from]; rewrite Hp; cbn; lia.
  - pose proof (no_overlapping_prefix sub c before rest Hu Hno) as Hp.
    rewrite append_cons in Hp |- *. cbn [find_from]. rewrite Hp.
    rewrite IH.
    + cbn [String.length]. lia.
    + intros (x & y & ->). apply Hno. by exists (String c x), y.
Qed.

Lemma find_first s sub before rest :
  s = before ++ sub ++ rest →
  head_unique sub = true →
  ¬ occurs_in sub before →
  find s sub = Z.of_nat (String.length before).
Proof. intros -> Hu Hno. unfold find. by rewrite find_from_first. Qed.

(** ** [_extract_pffft_license]: what it extracts *)

(** On a [pffft.c] that holds the comment, with each anchor first occurring
    where the comment has it, the license written is the comment without
    its opening "/* ": from "Copyright" to the closing anchor, and the one
    character that follows the anchor, if there is one. *)
Theorem extract_pffft_license_comment self fs before middle rest :
  fs !! pffft_c_path self =
    Some (before ++ "/* Copyright" ++ middle ++ "modern CPUs." ++ rest) →
  ¬ occurs_in "/* Copyright" before →
  ¬ occurs_in "modern CPUs." (before ++ "/* Copyright" ++ middle) →
  _extract_pffft_license self fs =
    Ok (<[license_path self :=
            "Copyright" ++ middle ++ "modern CPUs." ++ substring 0 1 rest]> fs).
Proof.
  intros Hload Hopen Hclose.
  set (text := before ++ "/* Copyright" ++ middle ++ "modern CPUs." ++ rest)
    in *.
  assert (find text "/* Copyright" = Z.of_nat (String.length before)) as Hi.
  { by apply find_first with (middle ++ "modern CPUs." ++ rest). }
  assert (find text "modern CPUs." =
          Z.of_nat (String.length (before ++ "/* Copyright" ++ middle))) as Hj.
  { apply find_first with rest; [|done..].
    unfold text. by rewrite !append_assoc. }
  unfold _extract_pffft_license, load. rewrite Hload, bind_Ok, Hi, Hj.
  unfold save. do 2 f_equal.
  rewrite !length_append. cbn [String.length].
  set (b := String.length before). set (m := String.length middle).
  replace (Z.of_nat b + 3)%Z with (Z.of_nat (b + 3)) by lia.
  replace (Z.of_nat (b + (12 + m)) + 13)%Z with (Z.of_nat (b + m + 25)) by lia.
  rewrite slice_nat.
  assert (String.length text = b + m + 24 + String.length rest)%nat as ->.
  { unfold text. rewrite !length_append. cbn [String.length]. fold b m. lia. }
  replace ((b + 3) `min` (b + m + 24 + String.length rest))%nat
    with (String.length (before ++ "/* ") + 0)%nat
    by (rewrite length_append; cbn [String.length]; fold b; lia).
  assert (text = (before ++ "/* ")
                 ++ ("Copyright" ++ middle ++ "modern CPUs.") ++ rest) as ->.
  { unfold text. by rewrite !append_assoc. }
  rewrite substring_skip.
  destruct rest as [|c rest]; cbn [String.length].
  - replace ((b + m + 25) `min` (b + m + 24 + 0)
             - (String.length (before ++ "/* ") + 0))%nat
      with (String.length ("Copyright" ++ middle ++ "modern CPUs.") + 0)%nat
      by (rewrite !length_append; cbn [String.length]; fold b m; lia).
    rewrite substring_take. cbn [substring]. by rewrite !append_assoc.
  - replace ((b + m + 25) `min` (b + m + 24 + S (String.length rest))
             - (String.length (before ++ "/* ") + 0))%nat
      with (String.length ("Copyright" ++ middle ++ "modern CPUs.") + 1)%nat
      by (rewrite !length_append; cbn [String.length]; fold b m; lia).
    rewrite substring_take. cbn [substring]. by rewrite !append_assoc.
Qed.

Lemma extract_pffft_license_comment_witness :
  _extract_pffft_license linux_recipe fs_with_license =
    Ok (<[license_path linux_recipe :=
            "Copyright" ++ " (c) 2013. Fast on " ++ "modern CPUs."
            ++ substring 0 1 " */ y"]> fs_with_license).
Proof.
  refine (extract_pffft_license_comment linux_recipe fs_with_license
            "x " " (c) 2013. Fast on " " */ y" _ _ _).
  - vm_compute; reflexivity.
  - apply find_absent. vm_compute; reflexivity.
  - apply find_absent. vm_compute; reflexivity.
Defined.

(** When the closing anchor first occurs before the opening one, the
    license file is written empty. *)
Theorem extract_pffft_license_anchors_swapped self fs before middle rest :
  fs !! pffft_c_path self =
    Some (before ++ "modern CPUs." ++ middle ++ "/* Copyright" ++ rest) →
  ¬ occurs_in "modern CPUs." before →
  ¬ occurs_in "/* Copyright" (before ++ "modern CPUs." ++ middle) →
  _extract_pffft_license self fs = Ok (<[license_path self := ""]> fs).
Proof.
  intros Hload Hclose Hopen.
  set (text := before ++ "modern CPUs." ++ middle ++ "/* Copyright" ++ rest)
    in *.
  assert (find text "modern CPUs." = Z.of_nat (String.length before)) as Hj.
  { by apply find_first with (middle ++ "/* Copyright" ++ rest). }
  assert (find text "/* Copyright" =
          Z.of_nat (String.length (before ++ "modern CPUs." ++ middle))) as Hi.
  { apply find_first with rest; [|done..].
    unfold text. by rewrite !append_assoc. }
  unfold _extract_pffft_license, load. rewrite Hload, bind_Ok, Hi, Hj.
  unfold save. do 2 f_equal.
  rewrite !length_append. cbn [String.length].
  set (b := String.length before). set (m := String.length middle).
  replace (Z.of_nat (b + (12 + m)) + 3)%Z with (Z.of_nat (b + m + 15)) by lia.
  replace (Z.of_nat b + 13)%Z with (Z.of_nat (b + 13)) by lia.
  rewrite slice_nat.
  replace ((b + 13) `min` String.length text
           - (b + m + 15) `min` String.length text)%nat with 0%nat by lia.
  apply substring_none.
Qed.

Lemma extract_pffft_license_anchors_swapped_witness :
  _extract_pffft_license linux_recipe
    {[ "/build/src/src/pffft.c" := "// modern CPUs.  /* Copyright 2013 */" ]} =
  Ok (<[license_path linux_recipe := ""]>
        {[ "/build/src/src/pffft.c" := "// modern CPUs.  /* Copyright 2013 */" ]}).
Proof.
  refine (extract_pffft_license_anchors_swapped linux_recipe _
            "// " "  " " 2013 */" _ _ _).
  - vm_compute; reflexivity.
  - apply find_absent. vm_compute; reflexivity.
  - apply find_absent. vm_compute; reflexivity.
Defined.

(** ** [_extract_pffft_license]: the files *)

Fixpoint last_char (s : string) : option ascii :=
  match s with
  | EmptyString => None
  | String c EmptyString => Some c
  | String _ s' => last_char s'
  end.

Lemma last_char_append s c t :
  last_char (s ++ String c t) = last_char (String c t).
Proof.
  induction s as [|x s IH]; [done|].
  rewrite append_cons. cbn [last_char].
  destruct (s ++ String c t) eqn:E; [|exact IH].
  destruct s; [done|]. by rewrite append_cons in E.
Qed.

(** A path joined with a directory and a file name ends with the name. *)
Lemma path_join_ends a d c name :
  String.prefix "/" (String c name) = false →
  ∃ dir, path_join a [d; String c name] = dir ++ String c name.
Proof.
  intros Hrel. unfold path_join. cbn [fold_left]. rewrite Hrel.
  match goal with |- context [if ?b then _ else _] => destruct b end.
  - by eexists.
  - eexists. by rewrite <- append_assoc.
Qed.

(** The license is never written over [pffft.c], whatever the folders. *)
Lemma license_path_not_pffft_c self : license_path self ≠ pffft_c_path self.
Proof.
  unfold license_path, pffft_c_path. intros Heq.
  destruct (path_join_ends (package_folder self) "licenses" "L" "ICENSE" eq_refl)
    as [d1 H1].
  destruct (path_join_ends (source_folder self) "src" "p" "ffft.c" eq_refl)
    as [d2 H2].
  apply (f_equal last_char) in Heq.
  rewrite H1, H2, !last_char_append in Heq. done.
Qed.

(** The extraction writes one file, the license, and leaves every other
    file, [pffft.c] among them, as it was; run again, it returns the same
    files. *)
Theorem extract_pffft_license_rerun self fs fs' :
  _extract_pffft_license self fs = Ok fs' →
  (∀ path, path ≠ license_path self → fs' !! path = fs !! path) ∧
  fs' !! pffft_c_path self = fs !! pffft_c_path self ∧
  _extract_pffft_license self fs' = Ok fs'.
Proof.
  unfold _extract_pffft_license, load, save.
  destruct (fs !! pffft_c_path self) as [text|] eqn:Hload; [|done].
  rewrite bind_Ok. intros [= <-].
  pose proof (license_path_not_pffft_c self) as Hne.
  split; [|split].
  - intros path Hpath. by rewrite lookup_insert_ne.
  - by rewrite lookup_insert_ne.
  - rewrite lookup_insert_ne by done. rewrite Hload, bind_Ok.
    by rewrite insert_insert_eq.
Qed.

Lemma extract_pffft_license_rerun_witness :
  let fs' := <["/build/pkg/licenses/LICENSE" :=
                 "Copyright (c) 2013. Fast on modern CPUs. "]> fs_with_license in
  _extract_pffft_license linux_recipe fs_with_license = Ok fs' ∧
  _extract_pffft_license linux_recipe fs' = Ok fs'.
Proof.
  intros fs'.
  assert (_extract_pffft_license linux_recipe fs_with_license = Ok fs') as Hrun
    by reflexivity.
  split; [exact Hrun|].
  exact (proj2 (proj2 (extract_pffft_license_rerun linux_recipe
                         fs_with_license fs' Hrun))).
Defined.
